(** * github.com/lukasngl/opt: the option type [opt.T] and its adapters

    A shallow embedding of [opt.go].  The package is one generic struct
    [T[V]] with constructors, accessors and adapters towards pointers,
    zeroness, [encoding/json] and [database/sql].  The parts of the Go
    language and standard library that the package calls ([reflect],
    [encoding/json], [database/sql]) are modelled in the modules [Go],
    [json], [reflect] and [sql]; the package itself is the module [opt]. *)

From Stdlib Require Import ZArith Ascii String Bool List.
From Stdlib Require Import DecimalString DecimalPos DecimalZ Lia.
Import ListNotations.

Local Open Scope string_scope.

(* ================================================================== *)
(** * The Go language: zero values, pointers, errors, panics           *)
(* ================================================================== *)

Module Go.

(** Every Go type has a zero value ([var x V] yields it). *)
Class Zero (V : Type) := zero : V.

(** A call either returns or panics; a panic carries its message. *)
Inductive outcome (A : Type) : Type :=
| Return (a : A)
| Panic (msg : string).

Arguments Return {A} a.
Arguments Panic {A} msg.

Definition bind {A B : Type} (c : outcome A) (k : A -> outcome B) : outcome B :=
  match c with
  | Return a => k a
  | Panic msg => Panic msg
  end.

(** A pointer [*V] is nil or refers to a cell holding a [V].  The package
    only ever compares a pointer with nil and reads through it, so a
    pointer is identified with the content of its cell. *)
Inductive ptr (V : Type) : Type :=
| nilptr
| ref (x : V).

Arguments nilptr {V}.
Arguments ref {V} x.

(** The interface type [error]: nil, or a value made by [errors.New]. *)
Inductive error : Type :=
| nil_error
| errors_New (msg : string).

Definition is_nil_error (e : error) : bool :=
  match e with
  | nil_error => true
  | errors_New _ => false
  end.

#[global] Instance Zero_bool : Zero bool := false.
#[global] Instance Zero_int : Zero Z := 0%Z.
#[global] Instance Zero_string : Zero string := "".
#[global] Instance Zero_ptr (V : Type) : Zero (ptr V) := nilptr.
#[global] Instance Zero_error : Zero error := nil_error.

End Go.

Import Go.

Notation "x <- c ;; k" := (Go.bind c (fun x => k))
  (at level 61, c at next level, right associativity).

(* ================================================================== *)
(** * encoding/json: the standard encoder and decoder of a type        *)
(* ================================================================== *)

Module json.

(** [Marshal v] is Go's [json.Marshal(v)]: the bytes and an error.
    [Unmarshal data cur] is [json.Unmarshal(data, &x)] where [x] holds
    [cur] before the call: it returns the content of [x] after the call
    (the decoder writes in place, also before it reports an error) and
    the error. *)
Class Codec (V : Type) := {
  Marshal : V -> string * error;
  Unmarshal : string -> V -> V * error
}.

(** ** The token of an input: the decoder skips the JSON white space
    (space, tab, line feed, carriage return) around a value *)

Definition is_space (a : ascii) : bool :=
  Ascii.eqb a " " || Ascii.eqb a "009" || Ascii.eqb a "010" || Ascii.eqb a "013".

Fixpoint trim_left (s : string) : string :=
  match s with
  | EmptyString => EmptyString
  | String a s' => if is_space a then trim_left s' else s
  end.

Fixpoint trim_right (s : string) : string :=
  match s with
  | EmptyString => EmptyString
  | String a s' =>
      match trim_right s' with
      | EmptyString => if is_space a then EmptyString else String a EmptyString
      | r => String a r
      end
  end.

Definition trim (s : string) : string := trim_right (trim_left s).

Fixpoint no_space (s : string) : bool :=
  match s with
  | EmptyString => true
  | String a s' => negb (is_space a) && no_space s'
  end.

(** ** bool *)

Definition Marshal_bool (b : bool) : string * error :=
  (if b then "true" else "false", nil_error).

Definition Unmarshal_bool (data : string) (cur : bool) : bool * error :=
  let tok := trim data in
  if String.eqb tok "true" then (true, nil_error)
  else if String.eqb tok "false" then (false, nil_error)
  else if String.eqb tok "null" then (cur, nil_error)
  else (cur, errors_New "json: cannot unmarshal into Go value of type bool").

#[global] Instance Codec_bool : Codec bool :=
  {| Marshal := Marshal_bool; Unmarshal := Unmarshal_bool |}.

(** ** int: the values of Go's 64-bit [int] are the [Z] from [int_min]
    to [int_max]; they are written in decimal *)

Definition int_min : Z := - 2 ^ 63.
Definition int_max : Z := 2 ^ 63 - 1.

(** A [Z] read as a 64-bit two's complement integer (the identity on the
    values of [int]). *)
Definition wrap_int (n : Z) : Z := ((n - int_min) mod 2 ^ 64 + int_min)%Z.

Definition Marshal_int (n : Z) : string * error :=
  (NilZero.string_of_int (Z.to_int (wrap_int n)), nil_error).

(** The JSON numbers without fraction and exponent: an optional minus
    sign, then [0] or digits that do not start with [0].  These are the
    canonical decimal writings, and [-0]. *)
Definition integer_literal (tok : string) : bool :=
  String.eqb tok "-0"
  || match NilZero.int_of_string tok with
     | Some d => String.eqb (NilZero.string_of_int (Decimal.norm d)) tok
     | None => false
     end.

Definition Unmarshal_int (data : string) (cur : Z) : Z * error :=
  let tok := trim data in
  if String.eqb tok "null" then (cur, nil_error)
  else if integer_literal tok then
    match NilZero.int_of_string tok with
    | Some d =>
        let n := Z.of_int d in
        if (int_min <=? n)%Z && (n <=? int_max)%Z then (n, nil_error)
        else (cur, errors_New "json: cannot unmarshal number into Go value of type int")
    | None => (cur, errors_New "json: cannot unmarshal into Go value of type int")
    end
  else (cur, errors_New "json: cannot unmarshal into Go value of type int").

#[global] Instance Codec_int : Codec Z :=
  {| Marshal := Marshal_int; Unmarshal := Unmarshal_int |}.

(** ** pointers: nil is written [null]; the token [null] is read as
    nil; any other input is decoded into the cell, which is allocated
    when the pointer was nil *)

Definition Marshal_ptr {V : Type} `{Codec V} (p : ptr V) : string * error :=
  match p with
  | nilptr => ("null", nil_error)
  | ref x => Marshal x
  end.

Definition Unmarshal_ptr {V : Type} `{Zero V} `{Codec V}
    (data : string) (cur : ptr V) : ptr V * error :=
  if String.eqb (trim data) "null" then (nilptr, nil_error)
  else
    let cell := match cur with nilptr => zero | ref x => x end in
    let (x', err) := Unmarshal data cell in
    (ref x', err).

#[global] Instance Codec_ptr (V : Type) `{Zero V} `{Codec V} : Codec (ptr V) :=
  {| Marshal := Marshal_ptr; Unmarshal := Unmarshal_ptr |}.

End json.

(* ================================================================== *)
(** * reflect: what [isZero] asks about a value                        *)
(* ================================================================== *)

Module reflect.

Inductive Kind : Type :=
| Invalid | Bool | Int | Uint | Float | Complex | Array | Chan | Func
| Interface | Map | Pointer | Slice | String | Struct | UnsafePointer.

Definition Kind_eqb (a b : Kind) : bool :=
  match a, b with
  | Invalid, Invalid | Bool, Bool | Int, Int | Uint, Uint | Float, Float
  | Complex, Complex | Array, Array | Chan, Chan | Func, Func
  | Interface, Interface | Map, Map | Pointer, Pointer | Slice, Slice
  | String, String | Struct, Struct | UnsafePointer, UnsafePointer => true
  | _, _ => false
  end.

(** What reflection reports about the values of a type [V]:
    - [Implements_isZeroer]: [reflect.TypeFor[V]().Implements(...)] for the
      interface with the single method [IsZero() bool];
    - [KindOf v]: [reflect.ValueOf(v).Kind()]; [ValueOf] of a nil interface
      value is the zero [Value], whose kind is [Invalid];
    - [IsNil v]: [rv.IsNil()], asked of pointers only;
    - [call_IsZero v]: the method call [v.IsZero()];
    - [fields_zero v]: every field or element is the zero value of its
      type (the cases of [Value.IsZero] for kinds that cannot be nil). *)
Class Reflected (V : Type) := {
  Implements_isZeroer : bool;
  KindOf : V -> Kind;
  IsNil : V -> bool;
  call_IsZero : V -> outcome bool;
  fields_zero : V -> bool
}.

(** [rv.IsZero()]: it panics on the zero [Value]. *)
Definition IsZero {V : Type} `{Reflected V} (value : V) : outcome bool :=
  match KindOf value with
  | Invalid => Panic "reflect: call of reflect.Value.IsZero on zero Value"
  | Chan | Func | Interface | Map | Pointer | Slice | UnsafePointer =>
      Return (IsNil value)
  | _ => Return (fields_zero value)
  end.

(** [rv.Interface().(isZeroer).IsZero()]: [Interface] panics on the zero
    [Value]. *)
Definition Interface_IsZero {V : Type} `{Reflected V} (value : V) : outcome bool :=
  match KindOf value with
  | Invalid => Panic "reflect: call of reflect.Value.Interface on zero Value"
  | _ => call_IsZero value
  end.

Definition no_method : outcome bool :=
  Panic "interface conversion: missing method IsZero".

#[global] Instance Reflected_bool : Reflected bool :=
  {| Implements_isZeroer := false;
     KindOf := fun _ => Bool;
     IsNil := fun _ => false;
     call_IsZero := fun _ => no_method;
     fields_zero := negb |}.

#[global] Instance Reflected_int : Reflected Z :=
  {| Implements_isZeroer := false;
     KindOf := fun _ => Int;
     IsNil := fun _ => false;
     call_IsZero := fun _ => no_method;
     fields_zero := fun n => (n =? 0)%Z |}.

#[global] Instance Reflected_string : Reflected string :=
  {| Implements_isZeroer := false;
     KindOf := fun _ => String;
     IsNil := fun _ => false;
     call_IsZero := fun _ => no_method;
     fields_zero := fun s => String.eqb s "" |}.

(** A pointer type [*V] has the methods of [V] in its method set unless
    [V] is itself a pointer or an interface type, whose zero value
    reflects to the kind [Pointer] or [Invalid]: the method set of [**T]
    and of a pointer to an interface is empty. *)
Definition pointer_has_methods {V : Type} `{Zero V} `{Reflected V} : bool :=
  match KindOf (zero : V) with
  | Pointer | Invalid => false
  | _ => Implements_isZeroer (V := V)
  end.

(** Calling a method through a nil pointer panics. *)
#[global] Instance Reflected_ptr (V : Type) `{Zero V} `{Reflected V} : Reflected (ptr V) :=
  {| Implements_isZeroer := pointer_has_methods (V := V);
     KindOf := fun _ => Pointer;
     IsNil := fun p => match p with nilptr => true | ref _ => false end;
     call_IsZero := fun p =>
       if pointer_has_methods (V := V) then
         match p with
         | nilptr => Panic "runtime error: invalid memory address or nil pointer dereference"
         | ref x => call_IsZero x
         end
       else no_method;
     fields_zero := fun p => match p with nilptr => true | ref _ => false end |}.

(** The interface type [error] has no [IsZero] method.  A nil [error]
    reflects to the zero [Value]; [errors.New] returns a non-nil pointer. *)
#[global] Instance Reflected_error : Reflected error :=
  {| Implements_isZeroer := false;
     KindOf := fun e => match e with nil_error => Invalid | errors_New _ => Pointer end;
     IsNil := fun e => is_nil_error e;
     call_IsZero := fun _ => no_method;
     fields_zero := fun e => is_nil_error e |}.

End reflect.

(* ================================================================== *)
(** * time: the part of [time.Time] the package's examples use         *)
(* ================================================================== *)

Module time.

(** Seconds and nanoseconds since year 1, and the location (nil is UTC). *)
Record Time : Type := { sec : Z; nsec : Z; loc : ptr string }.

#[global] Instance Zero_Time : Zero Time :=
  {| sec := 0; nsec := 0; loc := nilptr |}.

(** [func (t Time) IsZero() bool]: the instant only, not the location. *)
Definition IsZero (t : Time) : bool := (sec t =? 0)%Z && (nsec t =? 0)%Z.

(** [t.In(time.FixedZone(name, _))] *)
Definition In (t : Time) (name : string) : Time :=
  {| sec := sec t; nsec := nsec t; loc := ref name |}.

(** [t.Add(d)], [d] in whole seconds *)
Definition Add (t : Time) (d : Z) : Time :=
  {| sec := sec t + d; nsec := nsec t; loc := loc t |}.

#[global] Instance Reflected_Time : reflect.Reflected Time :=
  {| reflect.Implements_isZeroer := true;
     reflect.KindOf := fun _ => reflect.Struct;
     reflect.IsNil := fun _ => false;
     reflect.call_IsZero := fun t => Return (IsZero t);
     reflect.fields_zero := fun t =>
       (sec t =? 0)%Z && (nsec t =? 0)%Z
       && match loc t with nilptr => true | ref _ => false end |}.

(** [type Weekday int], Sunday = 0 ... Saturday = 6. *)
Inductive Weekday : Type := weekday (d : Z).

#[global] Instance Zero_Weekday : Zero Weekday := weekday 0.

Definition longDayNames : list string :=
  ["Sunday"; "Monday"; "Tuesday"; "Wednesday"; "Thursday"; "Friday"; "Saturday"].

(** [func (d Weekday) String() string]: the English name, or
    [%!Weekday(n)] with [n] the value read as a [uint64]. *)
Definition Weekday_String (w : Weekday) : string :=
  let 'weekday d := w in
  if (0 <=? d)%Z && (d <=? 6)%Z then nth (Z.to_nat d) longDayNames ""
  else "%!Weekday(" ++ NilZero.string_of_int (Z.to_int (d mod 2 ^ 64)) ++ ")".

#[global] Instance Reflected_Weekday : reflect.Reflected Weekday :=
  {| reflect.Implements_isZeroer := false;
     reflect.KindOf := fun _ => reflect.Int;
     reflect.IsNil := fun _ => false;
     reflect.call_IsZero := fun _ => reflect.no_method;
     reflect.fields_zero := fun w : Weekday => let 'weekday d := w in (d =? 0)%Z |}.

End time.

(* ================================================================== *)
(** * fmt: the verbs [String] uses                                     *)
(* ================================================================== *)

Module fmt.

(** What formatting needs to know about the values of a type [V]:
    - [Implements_Stringer]: [reflect.TypeFor[V]().Implements(...)] for
      [fmt.Stringer];
    - [TypeName v]: what the verb [%T] prints for [v];
    - [call_String v]: the method call [v.String()];
    - [default_format v]: what the verb [%v] prints for [v]. *)
Class Formatted (V : Type) := {
  Implements_Stringer : bool;
  TypeName : V -> string;
  call_String : V -> outcome string;
  default_format : V -> string
}.

(** [rv.Interface().(fmt.Stringer).String()]: [Interface] panics on the
    zero [Value]. *)
Definition Interface_String {V : Type} `{reflect.Reflected V} `{Formatted V}
    (value : V) : outcome string :=
  match reflect.KindOf value with
  | reflect.Invalid => Panic "reflect: call of reflect.Value.Interface on zero Value"
  | _ => call_String value
  end.

Definition no_method : outcome string :=
  Panic "interface conversion: missing method String".

#[global] Instance Formatted_string : Formatted string :=
  {| Implements_Stringer := false;
     TypeName := fun _ => "string";
     call_String := fun _ => no_method;
     default_format := fun s => s |}.

#[global] Instance Formatted_int : Formatted Z :=
  {| Implements_Stringer := false;
     TypeName := fun _ => "int";
     call_String := fun _ => no_method;
     default_format := fun n => NilZero.string_of_int (Z.to_int n) |}.

#[global] Instance Formatted_bool : Formatted bool :=
  {| Implements_Stringer := false;
     TypeName := fun _ => "bool";
     call_String := fun _ => no_method;
     default_format := fun b : bool => if b then "true" else "false" |}.

#[global] Instance Formatted_Weekday : Formatted time.Weekday :=
  {| Implements_Stringer := true;
     TypeName := fun _ => "time.Weekday";
     call_String := fun w => Return (time.Weekday_String w);
     default_format := time.Weekday_String |}.

(** [*time.Weekday] has [String] in its method set; calling it through a
    nil pointer panics, which [%v] catches and prints as [<nil>]. *)
#[global] Instance Formatted_ptr_Weekday : Formatted (ptr time.Weekday) :=
  {| Implements_Stringer := true;
     TypeName := fun _ => "*time.Weekday";
     call_String := fun p : ptr time.Weekday =>
       match p with
       | nilptr => Panic "runtime error: invalid memory address or nil pointer dereference"
       | ref w => Return (time.Weekday_String w)
       end;
     default_format := fun p : ptr time.Weekday =>
       match p with
       | nilptr => "<nil>"
       | ref w => time.Weekday_String w
       end |}.

End fmt.

(* ================================================================== *)
(** * math/rand and testing/quick                                      *)
(* ================================================================== *)

Module rand.

(** A source of randomness is the list of the raw draws it will still
    hand out; an exhausted source hands out 0. *)
Definition Rand : Type := list Z.

(** [r.Intn(n)] *)
Definition Intn (n : Z) (r : Rand) : Z * Rand :=
  match r with
  | [] => (0%Z, [])
  | x :: r' => ((x mod n)%Z, r')
  end.

End rand.

Module quick.

(** The two results of [quick.Value(t, rand)]: a value and [ok], or
    [!ok] for a type it cannot generate. *)
Inductive generated (V : Type) : Type :=
| value_ok (x : V)
| not_ok.

Arguments value_ok {V} x.
Arguments not_ok {V}.

(** [Name] is [reflect.TypeFor[V]().Name()]; [Value r] is
    [quick.Value(reflect.TypeFor[V](), r)] with the source it leaves. *)
Class Generable (V : Type) := {
  Name : string;
  Value : rand.Rand -> generated V * rand.Rand
}.

#[global] Instance Generable_bool : Generable bool :=
  {| Name := "bool";
     Value := fun r => let (x, r') := rand.Intn 2 r in (value_ok (x =? 0)%Z, r') |}.

#[global] Instance Generable_int : Generable Z :=
  {| Name := "int";
     Value := fun r =>
       match r with
       | [] => (value_ok 0%Z, [])
       | x :: r' => (value_ok x, r')
       end |}.

(** No value of an interface type can be generated. *)
#[global] Instance Generable_error : Generable error :=
  {| Name := "error"; Value := fun r => (not_ok, r) |}.

End quick.

(* ================================================================== *)
(** * database/sql: column values and [sql.Null]                       *)
(* ================================================================== *)

Module sql.

(** A column value as a driver hands it over ([driver.Value] passed as
    [any]): nil for SQL NULL. *)
Inductive any : Type :=
| any_nil
| any_int64 (n : Z)
| any_bool (b : bool)
| any_string (s : string).

Definition is_null (src : any) : bool :=
  match src with
  | any_nil => true
  | _ => false
  end.

(** [convertAssign(&dest, src)] for a destination of type [A] holding
    [cur]: the content of [dest] afterwards and the error. *)
Class Assignable (A : Type) := convertAssign : any -> A -> A * error.

#[global] Instance Assignable_int : Assignable Z := fun src cur =>
  match src with
  | any_int64 n => (n, nil_error)
  | any_string s =>
      match NilZero.int_of_string s with
      | Some d => (Z.of_int d, nil_error)
      | None => (cur, errors_New "sql: converting driver.Value type string to a int: invalid syntax")
      end
  | _ => (cur, errors_New "sql: converting driver.Value to a int: invalid syntax")
  end.

#[global] Instance Assignable_bool : Assignable bool := fun src cur =>
  match src with
  | any_bool b => (b, nil_error)
  | any_int64 0 => (false, nil_error)
  | any_int64 1 => (true, nil_error)
  | _ => (cur, errors_New "sql/driver: couldn't convert into type bool")
  end.

#[global] Instance Assignable_string : Assignable string := fun src cur =>
  match src with
  | any_string s => (s, nil_error)
  | any_int64 n => (NilZero.string_of_int (Z.to_int n), nil_error)
  | any_bool b => (if b then "true" else "false", nil_error)
  | any_nil => (cur, errors_New "sql: unsupported Scan, storing driver.Value type <nil>")
  end.

(** [sql.Null[A]]: a value and whether it is not NULL. *)
Record Null (A : Type) : Type := { V : A; Valid : bool }.

Arguments V {A} n.
Arguments Valid {A} n.

#[global] Instance Zero_Null (A : Type) `{Zero A} : Zero (Null A) :=
  {| V := zero; Valid := false |}.

(** [func (n *Null[T]) Scan(value any) error]: NULL resets the value and
    clears [Valid]; anything else sets [Valid] and converts into [V]. *)
Definition Scan {A : Type} `{Zero A} `{Assignable A}
    (n : Null A) (value : any) : Null A * error :=
  match value with
  | any_nil => ({| V := zero; Valid := false |}, nil_error)
  | _ =>
      let (x, err) := convertAssign value (V n) in
      ({| V := x; Valid := true |}, err)
  end.

(** The driver value of a non-NULL [n.V] and the error of making it
    (up to go1.23 the value as it is, later through
    [driver.DefaultParameterConverter]). *)
Class Valuable (A : Type) := driver_Value : A -> any * error.

#[global] Instance Valuable_int : Valuable Z := fun n => (any_int64 n, nil_error).
#[global] Instance Valuable_bool : Valuable bool := fun b => (any_bool b, nil_error).
#[global] Instance Valuable_string : Valuable string := fun s => (any_string s, nil_error).

(** [func (n Null[T]) Value() (driver.Value, error)]: NULL when [Valid]
    is false. *)
Definition Value {A : Type} `{Valuable A} (n : Null A) : any * error :=
  if negb (Valid n) then (any_nil, nil_error)
  else driver_Value (V n).

End sql.

(* ================================================================== *)
(** * package opt                                                      *)
(* ================================================================== *)

Module opt.

(** [type T[V any] struct { v V; present bool }] *)
Record T (V : Type) : Type := { v : V; present : bool }.

Arguments v {V} t.
Arguments present {V} t.

(** The zero value of a struct has every field at its zero value. *)
#[global] Instance Zero_T (V : Type) `{Zero V} : Zero (T V) :=
  {| v := zero; present := zero |}.

(** Go's [==] on a struct compares the fields one by one; [V_eq] is the
    [==] of the value type. *)
Definition eq {V : Type} (V_eq : V -> V -> bool) (a b : T V) : bool :=
  V_eq (v a) (v b) && Bool.eqb (present a) (present b).

Definition IsZero {V : Type} (t : T V) : bool := negb (present t).

Definition IsEmpty {V : Type} (t : T V) : bool := negb (present t).

Definition IsPresent {V : Type} (t : T V) : bool := present t.

(** [return T[V]{}] *)
Definition None {V : Type} `{Zero V} : T V :=
  {| v := zero; present := zero |}.

Definition Some {V : Type} (value : V) : T V :=
  {| v := value; present := true |}.

Definition FromNillable {V : Type} `{Zero V} (value : ptr V) : T V :=
  match value with
  | nilptr => None
  | ref x => Some x
  end.

Definition Unwrap {V : Type} (t : T V) : V * bool := (v t, present t).

(** [&value] is the address of the local copy made by [Unwrap]. *)
Definition ToNillable {V : Type} (t : T V) : ptr V :=
  let (value, present) := Unwrap t in
  if negb present then nilptr else ref value.

Definition isZero {V : Type} `{reflect.Reflected V} (value : V) : outcome bool :=
  if reflect.Implements_isZeroer (V := V) then
    if reflect.Kind_eqb (reflect.KindOf value) reflect.Pointer && reflect.IsNil value
    then Return true
    else reflect.Interface_IsZero value
  else reflect.IsZero value.

Definition FromZeroable {V : Type} `{Zero V} `{reflect.Reflected V}
    (value : V) : outcome (T V) :=
  z <- isZero value ;;
  Return (if z then None else Some value).

Definition Must {V : Type} (t : T V) : outcome V :=
  let (value, present) := Unwrap t in
  if negb present then Panic "called Must() on an empty opt.T"
  else Return value.

Definition OrElse {V : Type} (t : T V) (defaultValue : V) : V :=
  let (value, present) := Unwrap t in
  if negb present then defaultValue else value.

Definition OrZero {V : Type} (t : T V) : V :=
  let (value, _) := Unwrap t in value.

Definition MarshalJSON {V : Type} `{json.Codec V} (t : T V) : string * error :=
  if negb (present t) then ("null", nil_error)
  else json.Marshal (v t).

(** The receiver is a pointer: the call returns the receiver's new content
    together with the error. *)
Definition UnmarshalJSON {V : Type} `{json.Codec V}
    (t : T V) (data : string) : T V * error :=
  if String.eqb data "null" then
    ({| v := v t; present := false |}, nil_error)
  else
    let (x, err) := json.Unmarshal data (v t) in
    if is_nil_error err then ({| v := x; present := true |}, nil_error)
    else ({| v := x; present := present t |}, err).

Definition Scan {V : Type} `{Zero V} `{sql.Assignable V}
    (t : T V) (src : sql.any) : T V * error :=
  let (null, err) := sql.Scan (zero : sql.Null V) src in
  ({| v := sql.V null; present := sql.Valid null |}, err).

Definition coerceString {V : Type} `{reflect.Reflected V} `{fmt.Formatted V}
    (value : V) : outcome string :=
  if fmt.Implements_Stringer (V := V) then
    if reflect.Kind_eqb (reflect.KindOf value) reflect.Pointer && reflect.IsNil value
    then Return "<nil>"
    else fmt.Interface_String value
  else Return (fmt.default_format value).

(** The method [String] of [T]; the name [String] is the alias below. *)
Definition T_String {V : Type} `{reflect.Reflected V} `{fmt.Formatted V}
    (t : T V) : outcome string :=
  let (value, present) := Unwrap t in
  if negb present then Return ("None[" ++ fmt.TypeName value ++ "]()")
  else
    s <- coerceString value ;;
    Return ("Some[" ++ fmt.TypeName value ++ "](" ++ s ++ ")").

Definition Value {V : Type} `{sql.Valuable V} (t : T V) : sql.any * error :=
  sql.Value {| sql.V := v t; sql.Valid := present t |}.

(** The receiver and the size are not used.  The result is the generated
    option (wrapped in a [reflect.Value] in the source) and the source of
    randomness as the call leaves it.  The conversion of the generated
    value to [V] cannot fail: [quick.Value] was asked for a [V]. *)
Definition Generate {V : Type} `{Zero V} `{quick.Generable V}
    (t : T V) (r : rand.Rand) : outcome (T V) * rand.Rand :=
  let (coin, r1) := rand.Intn 2 r in
  if (coin =? 0)%Z then (Return None, r1)
  else
    let (value, r2) := quick.Value r1 in
    match value with
    | quick.not_ok =>
        (Panic ("failed to generate value for type " ++ quick.Name (V := V)), r2)
    | quick.value_ok concrete => (Return (Some concrete), r2)
    end.

(** ** The aliases for the builtin types *)

Inductive builtin : Type :=
| bool_ | complex64 | complex128 | error_ | float32 | float64
| int8 | int16 | int32 | int64 | string_
| uint8 | uint16 | uint32 | uint64.

(** [byte] and [rune] are Go's own aliases of [uint8] and [int32]. *)
Definition byte : builtin := uint8.
Definition rune : builtin := int32.

Inductive alias : Type :=
| Bool | Complex128 | Complex64 | Byte | Error | Float32 | Float64
| Int8 | Int16 | Int32 | Int64 | Rune | String
| Uint8 | Uint16 | Uint32 | Uint64.

(** The type block of the source: alias [a] is [T[aliased a]]. *)
Definition aliased (a : alias) : builtin :=
  match a with
  | Bool => bool_
  | Complex128 => complex64
  | Complex64 => complex128
  | Byte => byte
  | Error => error_
  | Float32 => float32
  | Float64 => float64
  | Int8 => uint8
  | Int16 => uint16
  | Int32 => uint32
  | Int64 => uint64
  | Rune => rune
  | String => string_
  | Uint8 => uint8
  | Uint16 => uint16
  | Uint32 => uint32
  | Uint64 => uint64
  end.

End opt.

(* ================================================================== *)
(** * package opt_test and package omitzero_test                       *)
(* ================================================================== *)

Module opt_test.

(** The function [TestFromNillableIdentity] hands to [quick.Check]. *)
Definition FromNillableIdentity (input : opt.T string) : outcome bool :=
  let to := opt.ToNillable input in
  let from := opt.FromNillable to in
  a <- opt.T_String input ;;
  b <- opt.T_String from ;;
  Return (if negb (String.eqb a b) then false else true).

End opt_test.

Module omitzero_test.

Definition quote : string := String "034"%char EmptyString.

(** [json.Marshal] of [struct { Value opt.T[V] `json:"value,omitzero"` }]:
    the field is left out when its [IsZero] method says so, and is
    written by its [MarshalJSON] otherwise. *)
Definition Marshal_ser {V : Type} `{json.Codec V} (optValue : opt.T V) : string * error :=
  if opt.IsZero optValue then ("{}", nil_error)
  else
    let (data, err) := opt.MarshalJSON optValue in
    if is_nil_error err
    then ("{" ++ quote ++ "value" ++ quote ++ ":" ++ data ++ "}", nil_error)
    else ("", errors_New "json: error calling MarshalJSON for type opt.T").

(** [typedTest] once [optValue] is generated. *)
Definition check {V : Type} `{json.Codec V} (optValue : opt.T V) : bool :=
  let (data, err) := Marshal_ser optValue in
  if negb (is_nil_error err) then false
  else if negb (Bool.eqb (String.eqb data "{}") (opt.IsZero optValue)) then false
  else true.

(** [quick.Value] of the type [opt.T[V]] calls [Generate] on its zero
    value. *)
Definition typedTest {V : Type} `{Zero V} `{quick.Generable V} `{json.Codec V}
    (r : rand.Rand) : outcome bool :=
  optValue <- fst (opt.Generate (zero : opt.T V) r) ;;
  Return (check optValue).

End omitzero_test.

(* ================================================================== *)
(** * Notions the properties are stated with                           *)
(* ================================================================== *)

(** I1: an absent option stores the zero value. *)
Definition zero_when_absent {V : Type} `{Zero V} (t : opt.T V) : Prop :=
  opt.present t = false -> opt.v t = zero.

(** I2: both absent, or both present with equal wrapped values. *)
Definition equal {V : Type} (a b : opt.T V) : Prop :=
  (opt.present a = false /\ opt.present b = false)
  \/ (opt.present a = true /\ opt.present b = true /\ opt.v a = opt.v b).

(** The options a program can hold: built by the constructors, or left in
    a receiver by a call of [UnmarshalJSON] or [Scan] that reported no
    error.  [allowed t data] says which calls [t.UnmarshalJSON(data)] are
    counted. *)
Inductive reachable_by {V : Type} `{Zero V} `{reflect.Reflected V}
    `{json.Codec V} `{sql.Assignable V}
    (allowed : opt.T V -> string -> Prop) : opt.T V -> Prop :=
| reach_None : reachable_by allowed opt.None
| reach_Some (value : V) : reachable_by allowed (opt.Some value)
| reach_FromNillable (p : ptr V) : reachable_by allowed (opt.FromNillable p)
| reach_FromZeroable (value : V) (t : opt.T V) :
    opt.FromZeroable value = Return t -> reachable_by allowed t
| reach_UnmarshalJSON (t t' : opt.T V) (data : string) :
    reachable_by allowed t -> allowed t data ->
    opt.UnmarshalJSON t data = (t', nil_error) -> reachable_by allowed t'
| reach_Scan (t t' : opt.T V) (src : sql.any) :
    reachable_by allowed t -> opt.Scan t src = (t', nil_error) ->
    reachable_by allowed t'.

(** Every call counts. *)
Definition reachable {V : Type} `{Zero V} `{reflect.Reflected V}
    `{json.Codec V} `{sql.Assignable V} : opt.T V -> Prop :=
  reachable_by (fun _ _ => True).

(** Only the calls that do not read [null] into a receiver that stores a
    value. *)
Definition null_into_zero {V : Type} `{Zero V} (t : opt.T V) (data : string) : Prop :=
  data = "null" -> opt.v t = zero.

(** A null reference: a nil pointer, or a nil interface value (which
    reflects to the zero [Value]). *)
Definition null_reference {V : Type} `{reflect.Reflected V} (value : V) : bool :=
  match reflect.KindOf value with
  | reflect.Invalid => true
  | reflect.Pointer => reflect.IsNil value
  | _ => false
  end.

(** The zeroness test in the words of the specification: a null reference
    is zero; otherwise the type's own [IsZero] decides when it has one;
    otherwise the structural comparison with the zero value. *)
Definition zeroness_spec {V : Type} `{reflect.Reflected V} (value : V) : outcome bool :=
  if null_reference value then Return true
  else if reflect.Implements_isZeroer (V := V) then reflect.call_IsZero value
  else reflect.IsZero value.

Definition FromZeroable_spec {V : Type} `{Zero V} `{reflect.Reflected V}
    (value : V) : outcome (opt.T V) :=
  z <- zeroness_spec value ;;
  Return (if z then opt.None else opt.Some value).

(** The builtin type an alias is named after. *)
Definition named_after (a : opt.alias) : opt.builtin :=
  match a with
  | opt.Bool => opt.bool_
  | opt.Complex128 => opt.complex128
  | opt.Complex64 => opt.complex64
  | opt.Byte => opt.byte
  | opt.Error => opt.error_
  | opt.Float32 => opt.float32
  | opt.Float64 => opt.float64
  | opt.Int8 => opt.int8
  | opt.Int16 => opt.int16
  | opt.Int32 => opt.int32
  | opt.Int64 => opt.int64
  | opt.Rune => opt.rune
  | opt.String => opt.string_
  | opt.Uint8 => opt.uint8
  | opt.Uint16 => opt.uint16
  | opt.Uint32 => opt.uint32
  | opt.Uint64 => opt.uint64
  end.

Definition builtin_eqb (a b : opt.builtin) : bool :=
  match a, b with
  | opt.bool_, opt.bool_ | opt.complex64, opt.complex64
  | opt.complex128, opt.complex128 | opt.error_, opt.error_
  | opt.float32, opt.float32 | opt.float64, opt.float64
  | opt.int8, opt.int8 | opt.int16, opt.int16 | opt.int32, opt.int32
  | opt.int64, opt.int64 | opt.string_, opt.string_
  | opt.uint8, opt.uint8 | opt.uint16, opt.uint16 | opt.uint32, opt.uint32
  | opt.uint64, opt.uint64 => true
  | _, _ => false
  end.

(** The integers a builtin integer type holds (no other type holds any). *)
Definition holds (b : opt.builtin) (n : Z) : bool :=
  match b with
  | opt.int8 => (- 2 ^ 7 <=? n)%Z && (n <? 2 ^ 7)%Z
  | opt.int16 => (- 2 ^ 15 <=? n)%Z && (n <? 2 ^ 15)%Z
  | opt.int32 => (- 2 ^ 31 <=? n)%Z && (n <? 2 ^ 31)%Z
  | opt.int64 => (- 2 ^ 63 <=? n)%Z && (n <? 2 ^ 63)%Z
  | opt.uint8 => (0 <=? n)%Z && (n <? 2 ^ 8)%Z
  | opt.uint16 => (0 <=? n)%Z && (n <? 2 ^ 16)%Z
  | opt.uint32 => (0 <=? n)%Z && (n <? 2 ^ 32)%Z
  | opt.uint64 => (0 <=? n)%Z && (n <? 2 ^ 64)%Z
  | _ => false
  end.

(** The aliases whose wrapped type is the one they are named after. *)
Definition faithful (a : opt.alias) : bool :=
  builtin_eqb (opt.aliased a) (named_after a).

Definition all_aliases : list opt.alias :=
  [opt.Bool; opt.Complex128; opt.Complex64; opt.Byte; opt.Error; opt.Float32;
   opt.Float64; opt.Int8; opt.Int16; opt.Int32; opt.Int64; opt.Rune;
   opt.String; opt.Uint8; opt.Uint16; opt.Uint32; opt.Uint64].

(* ================================================================== *)
(** * Construction and inspection                                      *)
(* ================================================================== *)

Section Inspection.

Context {V : Type} `{Zero V}.

Lemma None_absent : opt.IsPresent (opt.None (V := V)) = false.
Proof. reflexivity. Qed.

Lemma None_zero_when_absent : zero_when_absent (opt.None (V := V)).
Proof. intros _. reflexivity. Qed.

Lemma Some_present (value : V) : opt.IsPresent (opt.Some value) = true.
Proof. reflexivity. Qed.

Lemma Some_zero_when_absent (value : V) : zero_when_absent (opt.Some value).
Proof. unfold zero_when_absent. simpl. discriminate. Qed.

Lemma Some_OrElse (value other : V) : opt.OrElse (opt.Some value) other = value.
Proof. reflexivity. Qed.


(** Under I1, the equality of I2 is the equality of the two structs. *)
Lemma equal_eq (a b : opt.T V) :
  zero_when_absent a -> zero_when_absent b -> equal a b -> a = b.
Proof.
  intros Ha Hb [[Pa Pb] | [Pa [Pb Hv]]]; destruct a as [va pa], b as [vb pb];
    simpl in *; subst.
  - specialize (Ha eq_refl). specialize (Hb eq_refl). simpl in Ha, Hb.
    congruence.
  - reflexivity.
Qed.

End Inspection.

(** C4: [IsZero] is the absence check: it agrees with [IsEmpty] on every
    option, is the negation of [IsPresent], and is false on every present
    option, also on the one wrapping the zero value. *)
Theorem IsZero_is_IsEmpty :
  forall (V : Type) (zero_V : Zero V) (t : opt.T V),
    opt.IsZero t = opt.IsEmpty t
    /\ opt.IsZero t = negb (opt.IsPresent t)
    /\ (forall value : V, opt.IsZero (opt.Some value) = false)
    /\ opt.IsZero (opt.Some (zero : V)) = false
    /\ opt.IsZero (opt.None (V := V)) = true.
Proof.
  intros V zero_V t. repeat split.
Qed.

(** C8: [Must] panics on every absent option and returns the wrapped value
    of every present one; it is a function of the receiver's copy, so it
    changes nothing. *)
Theorem Must_panics_or_unwraps :
  forall (V : Type) (t : opt.T V),
    opt.Must t =
      (if opt.IsEmpty t then Panic "called Must() on an empty opt.T"
       else Return (opt.v t))
    /\ (forall value : V, opt.Must (opt.Some value) = Return value)
    /\ (forall value : V,
          opt.Must {| opt.v := value; opt.present := false |}
          = Panic "called Must() on an empty opt.T").
Proof.
  intros V [value [|]]; repeat split.
Qed.

(** C10: the zero value of [T[V]] is [None[V]()]: it is not present and
    stores the zero value of [V]. *)
Theorem zero_value_is_None :
  forall (V : Type) (zero_V : Zero V),
    (zero : opt.T V) = opt.None
    /\ opt.IsPresent (zero : opt.T V) = false
    /\ opt.IsEmpty (zero : opt.T V) = true
    /\ opt.v (zero : opt.T V) = zero
    /\ opt.OrZero (zero : opt.T V) = zero.
Proof.
  intros V zero_V. repeat split.
Qed.

(* ================================================================== *)
(** * Pointers                                                         *)
(* ================================================================== *)

(** X1: a pointer turned into an option and back is the pointer it was:
    nil stays nil, and a pointer to [x] comes back as a pointer to [x]. *)
Lemma ToNillable_FromNillable :
  forall (V : Type) (zero_V : Zero V) (p : ptr V),
    opt.ToNillable (opt.FromNillable p) = p.
Proof.
  intros V zero_V [|x]; reflexivity.
Qed.

Lemma FromNillable_zero_when_absent :
  forall (V : Type) (zero_V : Zero V) (p : ptr V),
    zero_when_absent (opt.FromNillable p).
Proof.
  intros V zero_V [|x]; simpl.
  - apply None_zero_when_absent.
  - apply Some_zero_when_absent.
Qed.

(** C3: converting an option to a pointer and back gives an option that is
    value-equal to it (absent when it is absent, present with the same
    wrapped value when it is present); the result is the very same struct
    whenever the option is present or stores the zero value. *)
Theorem FromNillable_ToNillable :
  forall (V : Type) (zero_V : Zero V) (x : opt.T V),
    equal (opt.FromNillable (opt.ToNillable x)) x
    /\ opt.FromNillable (opt.ToNillable x)
       = (if opt.present x then x else opt.None)
    /\ (zero_when_absent x -> opt.FromNillable (opt.ToNillable x) = x).
Proof.
  intros V zero_V [value [|]]; unfold equal; simpl.
  - split; [right; auto | split; [reflexivity | intros _; reflexivity]].
  - split; [left; auto | split; [reflexivity |]].
    intros Hz. specialize (Hz eq_refl). simpl in Hz.
    unfold opt.None. rewrite Hz. reflexivity.
Qed.

(** An absent option that stores a value comes back as [None]: the
    pointer carries no payload for it. *)
Lemma FromNillable_ToNillable_drops_stale_payload :
  opt.FromNillable (opt.ToNillable {| opt.v := 5%Z; opt.present := false |})
  = opt.None
  /\ opt.eq Z.eqb opt.None {| opt.v := 5%Z; opt.present := false |} = false.
Proof.
  split; reflexivity.
Qed.

(* ================================================================== *)
(** * Nullable columns                                                 *)
(* ================================================================== *)

Section Columns.

Context {V : Type} `{Zero V} `{sql.Assignable V}.

Lemma Scan_NULL (t : opt.T V) : opt.Scan t sql.any_nil = (opt.None, nil_error).
Proof. reflexivity. Qed.

Lemma Scan_forgets_receiver (t t' : opt.T V) (src : sql.any) :
  opt.Scan t src = opt.Scan t' src.
Proof. reflexivity. Qed.

Lemma sql_Scan_not_NULL (n : sql.Null V) (src : sql.any) :
  sql.is_null src = false ->
  sql.Scan n src =
    ({| sql.V := fst (sql.convertAssign src (sql.V n)); sql.Valid := true |},
     snd (sql.convertAssign src (sql.V n))).
Proof.
  destruct src; simpl; try discriminate; intros _;
    destruct (sql.convertAssign _ (sql.V n)); reflexivity.
Qed.

Lemma Scan_zero_when_absent (t : opt.T V) (src : sql.any) :
  zero_when_absent (fst (opt.Scan t src)).
Proof.
  destruct (sql.is_null src) eqn:E.
  - destruct src; try discriminate. intros _. reflexivity.
  - unfold opt.Scan. rewrite (sql_Scan_not_NULL _ _ E).
    unfold zero_when_absent. simpl. discriminate.
Qed.

End Columns.

(** C9: [Scan] hands the column to [sql.Null[V]]'s [Scan] on a fresh
    [sql.Null] and copies its two fields and its error; when there is no
    error, the option is present exactly when the column was not NULL and
    wraps the converted value, or the zero value for NULL. *)
Theorem Scan_delegates_to_sql_Null :
  forall (V : Type) (zero_V : Zero V) (assign_V : sql.Assignable V)
         (t : opt.T V) (src : sql.any),
    opt.Scan t src
    = ({| opt.v := sql.V (fst (sql.Scan (zero : sql.Null V) src));
          opt.present := sql.Valid (fst (sql.Scan (zero : sql.Null V) src)) |},
       snd (sql.Scan (zero : sql.Null V) src))
    /\ (snd (opt.Scan t src) = nil_error ->
        opt.present (fst (opt.Scan t src)) = negb (sql.is_null src)
        /\ opt.v (fst (opt.Scan t src))
           = (if sql.is_null src then zero
              else fst (sql.convertAssign src (zero : V)))).
Proof.
  intros V zero_V assign_V t src. split.
  - unfold opt.Scan. destruct (sql.Scan zero src); reflexivity.
  - intros _. destruct (sql.is_null src) eqn:E.
    + destruct src; try discriminate. split; reflexivity.
    + unfold opt.Scan. rewrite (sql_Scan_not_NULL _ _ E). split; reflexivity.
Qed.

(* ================================================================== *)
(** * The aliases                                                      *)
(* ================================================================== *)

Lemma faithful_iff (a : opt.alias) :
  faithful a = true <-> opt.aliased a = named_after a.
Proof.
  unfold faithful. destruct a; simpl; split; intro E;
    try reflexivity; try discriminate.
Qed.

Lemma aliases_listed (a : opt.alias) : In a all_aliases.
Proof. destruct a; simpl; tauto. Qed.

(** C7, at the type block of the source: eleven aliases wrap the type they
    are named after, but [Int8], [Int16], [Int32] and [Int64] wrap the
    unsigned types and [Complex64] and [Complex128] wrap each other's type;
    so [Int8] holds 200 and not -1, where [T[int8]] holds -1 and not 200. *)
Theorem aliases_of_signed_and_complex_differ :
  filter (fun a => negb (faithful a)) all_aliases
  = [opt.Complex128; opt.Complex64; opt.Int8; opt.Int16; opt.Int32; opt.Int64]
  /\ opt.aliased opt.Int8 = opt.uint8
  /\ opt.aliased opt.Int16 = opt.uint16
  /\ opt.aliased opt.Int32 = opt.uint32
  /\ opt.aliased opt.Int64 = opt.uint64
  /\ opt.aliased opt.Complex64 = opt.complex128
  /\ opt.aliased opt.Complex128 = opt.complex64
  /\ holds (named_after opt.Int8) (-1) = true
  /\ holds (opt.aliased opt.Int8) (-1) = false
  /\ holds (named_after opt.Int8) 200 = false
  /\ holds (opt.aliased opt.Int8) 200 = true.
Proof.
  repeat split.
Qed.

(* ================================================================== *)
(** * JSON                                                             *)
(* ================================================================== *)

Section JSON.

Context {V : Type} `{Zero V} `{json.Codec V}.


(** The null branch clears the discriminant and does not touch the
    payload. *)
Lemma UnmarshalJSON_null (t : opt.T V) :
  opt.UnmarshalJSON t "null"
  = ({| opt.v := opt.v t; opt.present := false |}, nil_error).
Proof. reflexivity. Qed.

Lemma UnmarshalJSON_null_into_None :
  opt.UnmarshalJSON (opt.None (V := V)) "null" = (opt.None, nil_error).
Proof. reflexivity. Qed.


(** A successful [UnmarshalJSON] keeps I1 except when it reads [null]
    into a receiver that holds a value. *)
Lemma UnmarshalJSON_zero_when_absent (t t' : opt.T V) (data : string) :
  (data = "null" -> opt.v t = zero) ->
  opt.UnmarshalJSON t data = (t', nil_error) ->
  zero_when_absent t'.
Proof.
  intros Hz. unfold opt.UnmarshalJSON.
  destruct (String.eqb_spec data "null") as [E | N].
  - intros [= <-]. intros _. simpl. auto.
  - destruct (json.Unmarshal data (opt.v t)) as [x err].
    destruct err; simpl.
    + intros [= <-]. unfold zero_when_absent. simpl. discriminate.
    + discriminate.
Qed.

End JSON.

(** X5: Go's [==] on options that keep I1 is the equality of I2: both
    absent, or both present with [==] wrapped values. *)
Lemma eq_under_invariant :
  forall (V : Type) (zero_V : Zero V) (V_eq : V -> V -> bool) (a b : opt.T V),
    V_eq zero zero = true ->
    zero_when_absent a -> zero_when_absent b ->
    (opt.eq V_eq a b = true <->
       (opt.IsEmpty a = true /\ opt.IsEmpty b = true)
       \/ (opt.IsPresent a = true /\ opt.IsPresent b = true
           /\ V_eq (opt.v a) (opt.v b) = true)).
Proof.
  intros V zero_V V_eq [va pa] [vb pb] Hzz Ha Hb.
  unfold opt.eq, opt.IsEmpty, opt.IsPresent, zero_when_absent in *. simpl in *.
  destruct pa, pb; simpl; rewrite ?andb_true_r, ?andb_false_r.
  - split; [intros E; right; auto | intros [[E _] | [_ [_ E]]]; [discriminate | exact E]].
  - split; [discriminate | intros [[E _] | [_ [E _]]]; discriminate].
  - split; [discriminate | intros [[_ E] | [E _]]; discriminate].
  - rewrite (Ha eq_refl), (Hb eq_refl), Hzz. split; auto.
Qed.

Lemma FromZeroable_zero_when_absent :
  forall (V : Type) (zero_V : Zero V) (refl_V : reflect.Reflected V)
         (value : V) (t : opt.T V),
    opt.FromZeroable value = Return t -> zero_when_absent t.
Proof.
  intros V zero_V refl_V value t. unfold opt.FromZeroable.
  destruct (opt.isZero value) as [[|] | msg]; simpl; try discriminate;
    intros [= <-].
  - apply None_zero_when_absent.
  - apply Some_zero_when_absent.
Qed.

(** X4: I1 holds of every option reached without reading [null] into a
    receiver that stores a value. *)
Lemma invariant_but_for_null :
  forall (V : Type) (zero_V : Zero V) (refl_V : reflect.Reflected V)
         (codec_V : json.Codec V) (assign_V : sql.Assignable V) (t : opt.T V),
    reachable_by null_into_zero t -> zero_when_absent t.
Proof.
  intros V zero_V refl_V codec_V assign_V t R.
  induction R as [ | value | p | value t E | t t' data _ _ Hok E | t t' src _ _ E ].
  - apply None_zero_when_absent.
  - apply Some_zero_when_absent.
  - apply FromNillable_zero_when_absent.
  - exact (FromZeroable_zero_when_absent _ _ _ _ _ E).
  - exact (UnmarshalJSON_zero_when_absent t t' data Hok E).
  - pose proof (Scan_zero_when_absent t src) as Hs. rewrite E in Hs. exact Hs.
Qed.

(** C1, at the receiver [Some(5)] of type [T[int]]: reading [null] reports
    no error and leaves an option that is absent and still stores 5, not
    the zero value; [OrZero] then returns 5.  Into a fresh receiver the
    same input gives [None]. *)
Theorem UnmarshalJSON_null_keeps_payload :
  opt.UnmarshalJSON (opt.Some 5%Z) "null"
  = ({| opt.v := 5%Z; opt.present := false |}, nil_error)
  /\ reachable {| opt.v := 5%Z; opt.present := false |}
  /\ opt.IsPresent {| opt.v := 5%Z; opt.present := false |} = false
  /\ Z.eqb (opt.v {| opt.v := 5%Z; opt.present := false |}) zero = false
  /\ opt.OrZero {| opt.v := 5%Z; opt.present := false |} = 5%Z
  /\ opt.UnmarshalJSON (opt.None (V := Z)) "null" = (opt.None, nil_error).
Proof.
  repeat split.
  apply (reach_UnmarshalJSON _ (opt.Some 5%Z) _ "null").
  - apply reach_Some.
  - exact I.
  - reflexivity.
Qed.

(** C5, at [a = None[int]()] and [b] the receiver [Some(5)] after reading
    [null]: both are absent, and [a == b] is false. *)
Theorem absent_options_compare_unequal :
  opt.IsEmpty (opt.None (V := Z)) = true
  /\ opt.IsEmpty (fst (opt.UnmarshalJSON (opt.Some 5%Z) "null")) = true
  /\ snd (opt.UnmarshalJSON (opt.Some 5%Z) "null") = nil_error
  /\ opt.eq Z.eqb opt.None (fst (opt.UnmarshalJSON (opt.Some 5%Z) "null")) = false
  /\ reachable (opt.None (V := Z))
  /\ reachable (fst (opt.UnmarshalJSON (opt.Some 5%Z) "null")).
Proof.
  repeat split.
  - apply reach_None.
  - apply (reach_UnmarshalJSON _ (opt.Some 5%Z) _ "null").
    + apply reach_Some.
    + exact I.
    + reflexivity.
Qed.

(** The scenario of the specification on [int]: [Some(5)] is written as
    [5] and read back, [None] is written as [null] and read back. *)
Lemma JSON_int_examples :
  opt.MarshalJSON (opt.Some 5%Z) = ("5", nil_error)
  /\ opt.UnmarshalJSON (opt.None (V := Z)) "5" = (opt.Some 5%Z, nil_error)
  /\ opt.MarshalJSON (opt.None (V := Z)) = ("null", nil_error)
  /\ opt.UnmarshalJSON (opt.None (V := Z)) "null" = (opt.None, nil_error)
  /\ opt.MarshalJSON (opt.Some (-12)%Z) = ("-12", nil_error)
  /\ opt.UnmarshalJSON (opt.Some 5%Z) "x"
     = (opt.Some 5%Z,
        errors_New "json: cannot unmarshal into Go value of type int").
Proof.
  repeat split.
Qed.

Section RoundTrip.

Context {V : Type} `{json.Codec V}.



End RoundTrip.


Lemma bool_decodes_back :
  forall (value : bool) (data : string),
    json.Marshal value = (data, nil_error) ->
    json.Unmarshal data zero = (value, nil_error).
Proof.
  intros [|] data [= <-]; reflexivity.
Qed.

Lemma bool_never_null :
  forall (value : bool) (data : string),
    json.Marshal value = (data, nil_error) -> data <> "null".
Proof.
  intros [|] data [= <-]; discriminate.
Qed.




(* ================================================================== *)
(** * Zeroness                                                         *)
(* ================================================================== *)

Section Zeroness.

Context {V : Type} `{Zero V} `{reflect.Reflected V}.

(** On every value that reflects to a valid [Value], the test of the
    source is: a nil pointer is zero; otherwise the type's own [IsZero]
    decides when it has one; otherwise [reflect]'s [IsZero]. *)
Lemma isZero_valid (value : V) :
  reflect.KindOf value <> reflect.Invalid ->
  opt.isZero value = zeroness_spec value.
Proof.
  intros Hk.
  unfold opt.isZero, zeroness_spec, null_reference,
    reflect.Interface_IsZero, reflect.IsZero.
  destruct (reflect.Implements_isZeroer (V := V));
    destruct (reflect.KindOf value); simpl;
    try reflexivity; try (exfalso; apply Hk; reflexivity);
    destruct (reflect.IsNil value); reflexivity.
Qed.

(** X6: on every value that reflects to a valid [Value], [FromZeroable]
    returns [None] when that test says zero and [Some] of the value
    otherwise, and panics only when the method or [reflect] does. *)
Lemma FromZeroable_valid (value : V) :
  reflect.KindOf value <> reflect.Invalid ->
  opt.FromZeroable value = FromZeroable_spec value.
Proof.
  intros Hk. unfold opt.FromZeroable, FromZeroable_spec.
  rewrite (isZero_valid value Hk). reflexivity.
Qed.

(** A nil interface value makes both branches of [isZero] panic. *)
Lemma isZero_invalid (value : V) :
  reflect.KindOf value = reflect.Invalid ->
  exists msg : string, opt.isZero value = Panic msg.
Proof.
  intros Hk.
  unfold opt.isZero, reflect.Interface_IsZero, reflect.IsZero.
  rewrite Hk. simpl.
  destruct (reflect.Implements_isZeroer (V := V)); eexists; reflexivity.
Qed.

(** A nil pointer is zero before any method is called through it. *)
Lemma FromZeroable_nil_pointer :
  opt.FromZeroable (nilptr : ptr V) = Return opt.None.
Proof.
  unfold opt.FromZeroable, opt.isZero, reflect.IsZero. simpl.
  destruct (reflect.pointer_has_methods (V := V)); reflexivity.
Qed.

End Zeroness.

(** The examples of the package on [time.Time]: the zero time, the zero
    instant in another zone (zero by its method, not by its fields), a
    later time, and pointers to them. *)
Lemma FromZeroable_time_examples :
  opt.FromZeroable (zero : time.Time) = Return opt.None
  /\ opt.FromZeroable (time.In zero "XTC") = Return opt.None
  /\ reflect.fields_zero (time.In zero "XTC") = false
  /\ opt.FromZeroable (time.Add zero 3661)
     = Return (opt.Some (time.Add zero 3661))
  /\ opt.FromZeroable (nilptr : ptr time.Time) = Return opt.None
  /\ reflect.call_IsZero (nilptr : ptr time.Time)
     = Panic "runtime error: invalid memory address or nil pointer dereference"
  /\ opt.FromZeroable (ref (time.In zero "XTC")) = Return opt.None
  /\ opt.FromZeroable (ref (time.Add zero 3661))
     = Return (opt.Some (ref (time.Add zero 3661))).
Proof.
  repeat split.
Qed.

(** C6, at the nil value of the interface type [error] (the type of the
    alias [Error]): the specification's test finds a null reference and
    gives the absent option; [FromZeroable] panics inside
    [reflect.Value.IsZero]. *)
Theorem FromZeroable_nil_interface_panics :
  null_reference nil_error = true
  /\ FromZeroable_spec nil_error = Return opt.None
  /\ opt.FromZeroable nil_error
     = Panic "reflect: call of reflect.Value.IsZero on zero Value"
  /\ opt.FromZeroable (errors_New "boom") = Return (opt.Some (errors_New "boom")).
Proof.
  repeat split.
Qed.

(* ================================================================== *)
(** * Further properties: accessors                                    *)
(* ================================================================== *)

(** X2: on an option that keeps I1, [OrZero] is [OrElse] with the zero
    value as the default. *)
Theorem OrZero_is_OrElse_zero :
  forall (V : Type) (zero_V : Zero V) (t : opt.T V),
    zero_when_absent t -> opt.OrZero t = opt.OrElse t zero.
Proof.
  intros V zero_V [value [|]] Hz.
  - reflexivity.
  - specialize (Hz eq_refl). simpl in Hz. exact Hz.
Qed.

Lemma OrZero_is_OrElse_zero_witness :
  opt.OrZero (opt.FromNillable (nilptr : ptr Z))
  = opt.OrElse (opt.FromNillable (nilptr : ptr Z)) 0%Z.
Proof.
  apply (OrZero_is_OrElse_zero Z _ (opt.FromNillable nilptr)).
  intros _. reflexivity.
Defined.

(** X3: when [Must] returns [x], every other accessor gives [x] too:
    [Unwrap] gives [(x, true)], [OrElse] gives [x] whatever the default,
    [OrZero] gives [x] and [ToNillable] a pointer to [x]. *)
Theorem Must_agrees_with_accessors :
  forall (V : Type) (t : opt.T V) (x : V),
    opt.Must t = Return x ->
    opt.Unwrap t = (x, true)
    /\ (forall defaultValue : V, opt.OrElse t defaultValue = x)
    /\ opt.OrZero t = x
    /\ opt.ToNillable t = ref x
    /\ opt.IsPresent t = true.
Proof.
  intros V [value [|]] x; unfold opt.Must; simpl.
  - intros [= <-]. repeat split.
  - discriminate.
Qed.

Lemma Must_agrees_with_accessors_witness :
  opt.Unwrap (opt.Some 5%Z) = (5%Z, true)
  /\ (forall defaultValue : Z, opt.OrElse (opt.Some 5%Z) defaultValue = 5%Z)
  /\ opt.OrZero (opt.Some 5%Z) = 5%Z
  /\ opt.ToNillable (opt.Some 5%Z) = ref 5%Z
  /\ opt.IsPresent (opt.Some 5%Z) = true.
Proof.
  exact (Must_agrees_with_accessors Z (opt.Some 5%Z) 5%Z eq_refl).
Defined.

Lemma invariant_but_for_null_witness :
  opt.v (fst (opt.UnmarshalJSON (opt.None (V := Z)) "null")) = 0%Z.
Proof.
  refine (invariant_but_for_null Z _ _ _ _
            (fst (opt.UnmarshalJSON (opt.None (V := Z)) "null")) _ eq_refl).
  apply (reach_UnmarshalJSON _ opt.None _ "null").
  - apply reach_None.
  - intros _. reflexivity.
  - reflexivity.
Defined.

Lemma eq_under_invariant_witness :
  opt.eq Z.eqb (opt.Some 3%Z) (opt.Some 3%Z) = true <->
  (opt.IsEmpty (opt.Some 3%Z) = true /\ opt.IsEmpty (opt.Some 3%Z) = true)
  \/ (opt.IsPresent (opt.Some 3%Z) = true /\ opt.IsPresent (opt.Some 3%Z) = true
      /\ Z.eqb (opt.v (opt.Some 3%Z)) (opt.v (opt.Some 3%Z)) = true).
Proof.
  apply (eq_under_invariant Z _ Z.eqb (opt.Some 3%Z) (opt.Some 3%Z)).
  - reflexivity.
  - intros E. discriminate E.
  - intros E. discriminate E.
Defined.

Lemma FromZeroable_valid_witness :
  opt.FromZeroable (time.In zero "XTC") = FromZeroable_spec (time.In zero "XTC").
Proof.
  apply (FromZeroable_valid (time.In zero "XTC")).
  intros E. discriminate E.
Defined.

(* ================================================================== *)
(** * Further properties: nullable columns                             *)
(* ================================================================== *)

(** X8: [Scan] overwrites the receiver: what it leaves does not depend on
    what the receiver held, and an option it leaves absent stores the
    zero value, with or without an error. *)
Theorem Scan_overwrites_receiver :
  forall (V : Type) (zero_V : Zero V) (assign_V : sql.Assignable V)
         (t t' : opt.T V) (src : sql.any),
    opt.Scan t src = opt.Scan t' src
    /\ (opt.present (fst (opt.Scan t src)) = false ->
        opt.v (fst (opt.Scan t src)) = zero /\ src = sql.any_nil).
Proof.
  intros V zero_V assign_V t t' src. split; [reflexivity |].
  destruct (sql.is_null src) eqn:E.
  - destruct src; try discriminate. intros _. split; reflexivity.
  - unfold opt.Scan. rewrite (sql_Scan_not_NULL _ _ E). simpl. discriminate.
Qed.

Section DriverValues.

Context {V : Type} `{Zero V} `{sql.Assignable V} `{sql.Valuable V}.

Lemma Value_absent (t : opt.T V) :
  opt.present t = false -> opt.Value t = (sql.any_nil, nil_error).
Proof.
  intros E. unfold opt.Value, sql.Value. simpl. rewrite E. reflexivity.
Qed.

Lemma Value_present (t : opt.T V) :
  opt.present t = true -> opt.Value t = sql.driver_Value (opt.v t).
Proof.
  intros E. unfold opt.Value, sql.Value. simpl. rewrite E. reflexivity.
Qed.

End DriverValues.

(** X9: when the driver value of every [V] is not NULL and converts back
    to it, scanning what [Value] produced for [t] gives, in any receiver
    and without error, [t] itself if it is present and [None] if it is
    absent. *)
Theorem Value_Scan_round_trip :
  forall (V : Type) (zero_V : Zero V) (assign_V : sql.Assignable V)
         (value_V : sql.Valuable V),
    (forall (x : V) (src : sql.any),
        sql.driver_Value x = (src, nil_error) ->
        sql.is_null src = false
        /\ sql.convertAssign src (zero : V) = (x, nil_error)) ->
    forall (t receiver : opt.T V) (src : sql.any),
      opt.Value t = (src, nil_error) ->
      opt.Scan receiver src
      = ((if opt.present t then t else opt.None), nil_error).
Proof.
  intros V zero_V assign_V value_V Hconv [value [|]] receiver src.
  - rewrite Value_present by reflexivity. simpl. intros Hv.
    destruct (Hconv value src Hv) as [Hn Ha].
    unfold opt.Scan. rewrite (sql_Scan_not_NULL _ _ Hn). simpl.
    change (sql.V zero) with (zero : V). rewrite Ha. reflexivity.
  - rewrite Value_absent by reflexivity. intros [= <-]. reflexivity.
Qed.

Lemma int_driver_value_converts_back :
  forall (x : Z) (src : sql.any),
    sql.driver_Value x = (src, nil_error) ->
    sql.is_null src = false /\ sql.convertAssign src (zero : Z) = (x, nil_error).
Proof.
  intros x src [= <-]. split; reflexivity.
Qed.

Lemma Value_Scan_round_trip_witness :
  opt.Scan (opt.Some 7%Z) (sql.any_int64 5)
  = ((if opt.present (opt.Some 5%Z) then opt.Some 5%Z else opt.None), nil_error).
Proof.
  exact (Value_Scan_round_trip Z _ _ _ int_driver_value_converts_back
           (opt.Some 5%Z) (opt.Some 7%Z) (sql.any_int64 5) eq_refl).
Defined.

(** X10: when no driver value of [V] is NULL, [Value] gives NULL exactly
    for the absent options, whatever they store, and gives it without
    error. *)
Theorem Value_NULL_iff_absent :
  forall (V : Type) (value_V : sql.Valuable V),
    (forall x : V, sql.is_null (fst (sql.driver_Value x)) = false) ->
    forall t : opt.T V,
      sql.is_null (fst (opt.Value t)) = opt.IsEmpty t
      /\ (opt.IsEmpty t = true -> opt.Value t = (sql.any_nil, nil_error)).
Proof.
  intros V value_V Hnn [value [|]]; unfold opt.Value, sql.Value, opt.IsEmpty; simpl.
  - split; [apply Hnn | discriminate].
  - split; [reflexivity | intros _; reflexivity].
Qed.

Lemma Value_NULL_iff_absent_witness :
  sql.is_null (fst (opt.Value {| opt.v := "stale"; opt.present := false |}))
  = opt.IsEmpty {| opt.v := "stale"; opt.present := false |}
  /\ (opt.IsEmpty {| opt.v := "stale"; opt.present := false |} = true ->
      opt.Value {| opt.v := "stale"; opt.present := false |}
      = (sql.any_nil, nil_error)).
Proof.
  exact (Value_NULL_iff_absent string _ (fun x => eq_refl)
           {| opt.v := "stale"; opt.present := false |}).
Defined.

(* ================================================================== *)
(** * Further properties: JSON                                         *)
(* ================================================================== *)

(** X11: when the decoder of [V] reports an error, [UnmarshalJSON]
    returns that error, leaves the discriminant as it was and stores what
    the decoder left in the payload. *)
Theorem UnmarshalJSON_error_keeps_discriminant :
  forall (V : Type) (codec_V : json.Codec V) (t : opt.T V)
         (data msg : string) (x : V),
    data <> "null" ->
    json.Unmarshal data (opt.v t) = (x, errors_New msg) ->
    opt.UnmarshalJSON t data
    = ({| opt.v := x; opt.present := opt.present t |}, errors_New msg).
Proof.
  intros V codec_V t data msg x Hd Hu. unfold opt.UnmarshalJSON.
  destruct (String.eqb_spec data "null") as [E | _]; [contradiction |].
  rewrite Hu. reflexivity.
Qed.

Lemma UnmarshalJSON_error_keeps_discriminant_witness :
  opt.UnmarshalJSON (opt.None (V := bool)) "maybe"
  = ({| opt.v := false; opt.present := opt.present (opt.None (V := bool)) |},
     errors_New "json: cannot unmarshal into Go value of type bool").
Proof.
  apply (UnmarshalJSON_error_keeps_discriminant bool _ opt.None "maybe").
  - intros E. discriminate E.
  - reflexivity.
Defined.


(** A padded [null] read into [T[int]] and into a nil pointer to int. *)
Lemma padded_null_example :
  opt.UnmarshalJSON (opt.None (V := Z)) " null" = (opt.Some 0%Z, nil_error)
  /\ json.Unmarshal " null" (nilptr : ptr Z) = (nilptr, nil_error)
  /\ json.Unmarshal " 5 " 0%Z = (5%Z, nil_error)
  /\ snd (json.Unmarshal "007" 0%Z) <> nil_error
  /\ json.Unmarshal "-0" 1%Z = (0%Z, nil_error)
  /\ snd (json.Unmarshal "9223372036854775808" 0%Z) <> nil_error.
Proof.
  repeat split; discriminate.
Qed.

(* ================================================================== *)
(** * Further properties: the display string                           *)
(* ================================================================== *)

Section Display.

Context {V : Type} `{reflect.Reflected V} `{fmt.Formatted V}.

Lemma T_String_absent (t : opt.T V) :
  opt.present t = false ->
  opt.T_String t = Return ("None[" ++ fmt.TypeName (opt.v t) ++ "]()").
Proof.
  intros E. unfold opt.T_String, opt.Unwrap. rewrite E. reflexivity.
Qed.

Lemma T_String_present (t : opt.T V) (s : string) :
  opt.present t = true ->
  opt.T_String t = Return s ->
  exists inner : string,
    opt.coerceString (opt.v t) = Return inner
    /\ s = "Some[" ++ fmt.TypeName (opt.v t) ++ "](" ++ inner ++ ")".
Proof.
  intros E. unfold opt.T_String, opt.Unwrap. rewrite E. simpl.
  destruct (opt.coerceString (opt.v t)) as [inner | msg]; simpl.
  - intros [= <-]. exists inner. split; reflexivity.
  - discriminate.
Qed.

End Display.

(** X13: the display string tells absent from present: two options with
    the same display string are both absent or both present. *)
Theorem T_String_tells_presence :
  forall (V : Type) (refl_V : reflect.Reflected V) (fmt_V : fmt.Formatted V)
         (a b : opt.T V) (s : string),
    opt.T_String a = Return s ->
    opt.T_String b = Return s ->
    opt.present a = opt.present b.
Proof.
  intros V refl_V fmt_V a b s Ha Hb.
  destruct (opt.present a) eqn:Pa, (opt.present b) eqn:Pb; try reflexivity.
  - destruct (T_String_present a s Pa Ha) as [inner [_ E]].
    rewrite (T_String_absent b Pb) in Hb. injection Hb as Hb.
    rewrite E in Hb. discriminate Hb.
  - destruct (T_String_present b s Pb Hb) as [inner [_ E]].
    rewrite (T_String_absent a Pa) in Ha. injection Ha as Ha.
    rewrite E in Ha. discriminate Ha.
Qed.

Lemma T_String_tells_presence_witness :
  opt.present (opt.Some "hello") = opt.present (opt.FromNillable (ref "hello")).
Proof.
  exact (T_String_tells_presence string _ _ (opt.Some "hello")
           (opt.FromNillable (ref "hello")) "Some[string](hello)" eq_refl eq_refl).
Defined.

(** X14: for a type with a [String] method, a nil pointer is rendered as
    [<nil>] before the method is called through it, so the display string
    of the present option wrapping it is [Some[T](<nil>)]. *)
Theorem coerceString_nil_pointer :
  forall (V : Type) (refl_V : reflect.Reflected V) (fmt_V : fmt.Formatted V)
         (value : V),
    fmt.Implements_Stringer (V := V) = true ->
    reflect.KindOf value = reflect.Pointer ->
    reflect.IsNil value = true ->
    opt.coerceString value = Return "<nil>"
    /\ opt.T_String (opt.Some value)
       = Return ("Some[" ++ fmt.TypeName value ++ "](<nil>)").
Proof.
  intros V refl_V fmt_V value Hs Hk Hn.
  assert (opt.coerceString value = Return "<nil>") as E.
  { unfold opt.coerceString. rewrite Hs, Hk, Hn. reflexivity. }
  split; [exact E |].
  unfold opt.T_String. simpl. rewrite E. reflexivity.
Qed.

Lemma coerceString_nil_pointer_witness :
  opt.coerceString (nilptr : ptr time.Weekday) = Return "<nil>"
  /\ opt.T_String (opt.Some (nilptr : ptr time.Weekday))
     = Return ("Some[" ++ "*time.Weekday" ++ "](<nil>)").
Proof.
  exact (coerceString_nil_pointer (ptr time.Weekday) _ _ nilptr
           eq_refl eq_refl eq_refl).
Defined.

(** The examples of the package on strings, and a weekday rendered by its
    own method. *)
Lemma T_String_examples :
  opt.T_String (opt.None (V := string)) = Return "None[string]()"
  /\ opt.T_String (opt.Some "hello") = Return "Some[string](hello)"
  /\ opt.T_String (opt.Some (time.weekday 2)) = Return "Some[time.Weekday](Tuesday)"
  /\ opt.T_String (opt.Some (ref (time.weekday 9)))
     = Return "Some[*time.Weekday](%!Weekday(9))"
  /\ fmt.call_String (nilptr : ptr time.Weekday)
     = Panic "runtime error: invalid memory address or nil pointer dereference".
Proof.
  repeat split.
Qed.

(** X15: the property [TestFromNillableIdentity] checks holds of every
    option of strings, present or absent, whatever an absent one stores:
    the option and its round trip through a pointer have the same display
    string. *)
Theorem FromNillableIdentity_holds :
  forall input : opt.T string,
    opt_test.FromNillableIdentity input = Return true
    /\ opt.T_String (opt.FromNillable (opt.ToNillable input))
       = opt.T_String input.
Proof.
  intros [s [|]]; unfold opt_test.FromNillableIdentity; simpl.
  - rewrite String.eqb_refl. split; reflexivity.
  - split; reflexivity.
Qed.

(* ================================================================== *)
(** * Further properties: generated options and the omitzero test      *)
(* ================================================================== *)

(** X16: what [Generate] returns does not depend on its receiver, and is
    [None] or [Some] of a generated value: never an absent option that
    stores a value. *)
Theorem Generate_None_or_Some :
  forall (V : Type) (zero_V : Zero V) (gen_V : quick.Generable V)
         (t t' : opt.T V) (r r' : rand.Rand) (g : opt.T V),
    opt.Generate t r = (Return g, r') ->
    opt.Generate t' r = (Return g, r')
    /\ (g = opt.None \/ exists x : V, g = opt.Some x)
    /\ (opt.present g = false -> opt.v g = zero).
Proof.
  intros V zero_V gen_V t t' r r' g. unfold opt.Generate.
  destruct (rand.Intn 2 r) as [coin r1].
  destruct (coin =? 0)%Z.
  - intros [= <- <-]. repeat split; auto.
  - destruct (quick.Value r1) as [[x |] r2].
    + intros [= <- <-]. repeat split.
      * right. exists x. reflexivity.
      * simpl. discriminate.
    + discriminate.
Qed.

Lemma Generate_None_or_Some_witness :
  opt.Generate (opt.Some false) [1%Z; 0%Z] = (Return (opt.Some true), [])
  /\ (opt.Some true = opt.None \/ exists x : bool, opt.Some true = opt.Some x)
  /\ (opt.present (opt.Some true) = false -> opt.v (opt.Some true) = zero).
Proof.
  exact (Generate_None_or_Some bool _ _ opt.None (opt.Some false)
           [1%Z; 0%Z] [] (opt.Some true) eq_refl).
Defined.

(** X17: when no value of [V] can be generated, [Generate] returns [None]
    on an even draw and panics on an odd one, naming the type. *)
Theorem Generate_failure_panics :
  forall (V : Type) (zero_V : Zero V) (gen_V : quick.Generable V),
    (forall r : rand.Rand, fst (quick.Value (V := V) r) = quick.not_ok) ->
    forall (t : opt.T V) (r : rand.Rand),
      fst (opt.Generate t r)
      = (if (fst (rand.Intn 2 r) =? 0)%Z then Return opt.None
         else Panic ("failed to generate value for type " ++ quick.Name (V := V))).
Proof.
  intros V zero_V gen_V Hno t r. unfold opt.Generate.
  destruct (rand.Intn 2 r) as [coin r1]. simpl.
  destruct (coin =? 0)%Z; [reflexivity |].
  specialize (Hno r1). destruct (quick.Value r1) as [[x |] r2]; simpl in *.
  - discriminate Hno.
  - reflexivity.
Qed.

Lemma Generate_failure_panics_witness :
  fst (opt.Generate (opt.None (V := error)) [3%Z])
  = (if (fst (rand.Intn 2 [3%Z]) =? 0)%Z then Return opt.None
     else Panic ("failed to generate value for type " ++ "error")).
Proof.
  exact (Generate_failure_panics error _ _ (fun r => eq_refl) opt.None [3%Z]).
Defined.

Lemma check_passes :
  forall (V : Type) (codec_V : json.Codec V) (optValue : opt.T V),
    snd (opt.MarshalJSON optValue) = nil_error ->
    omitzero_test.check optValue = true.
Proof.
  intros V codec_V [value [|]]; unfold omitzero_test.check,
    omitzero_test.Marshal_ser, opt.IsZero, opt.MarshalJSON; simpl.
  - destruct (json.Marshal value) as [data err]. simpl. intros ->. reflexivity.
  - intros _. reflexivity.
Qed.

(** X18: when the encoder of [V] does not fail, the struct with one
    omitzero field of type [opt.T[V]] is written as [{}] exactly when the
    option is absent, whatever it stores, and with the field holding the
    encoding of the wrapped value when the option is present, also when
    that value is the zero value; so [typedTest] returns true whenever
    generation does not panic. *)
Theorem omitzero_omits_exactly_absent :
  forall (V : Type) (zero_V : Zero V) (gen_V : quick.Generable V)
         (codec_V : json.Codec V),
    (forall x : V, snd (json.Marshal x) = nil_error) ->
    (forall optValue : opt.T V,
        omitzero_test.Marshal_ser optValue
        = (if opt.present optValue
           then ("{" ++ omitzero_test.quote ++ "value" ++ omitzero_test.quote
                 ++ ":" ++ fst (json.Marshal (opt.v optValue)) ++ "}",
                 nil_error)
           else ("{}", nil_error)))
    /\ (forall optValue : opt.T V,
          String.eqb (fst (omitzero_test.Marshal_ser optValue)) "{}"
          = negb (opt.present optValue))
    /\ (forall (r : rand.Rand) (b : bool),
          omitzero_test.typedTest (V := V) r = Return b -> b = true).
Proof.
  intros V zero_V gen_V codec_V Hm.
  assert (forall optValue : opt.T V,
             omitzero_test.Marshal_ser optValue
             = (if opt.present optValue
                then ("{" ++ omitzero_test.quote ++ "value" ++ omitzero_test.quote
                      ++ ":" ++ fst (json.Marshal (opt.v optValue)) ++ "}",
                      nil_error)
                else ("{}", nil_error))) as Hser.
  { intros [value [|]]; unfold omitzero_test.Marshal_ser, opt.IsZero,
      opt.MarshalJSON; simpl; [| reflexivity].
    specialize (Hm value). destruct (json.Marshal value) as [data err].
    simpl in Hm. subst err. reflexivity. }
  split; [exact Hser | split].
  - intros optValue. rewrite Hser. destruct (opt.present optValue); reflexivity.
  - intros r b. unfold omitzero_test.typedTest.
    destruct (fst (opt.Generate zero r)) as [g | msg]; simpl; [| discriminate].
    intros [= <-]. apply check_passes.
    unfold opt.MarshalJSON. destruct (negb (opt.present g)); [reflexivity | apply Hm].
Qed.

Lemma omitzero_omits_exactly_absent_witness :
  (forall optValue : opt.T bool,
      omitzero_test.Marshal_ser optValue
      = (if opt.present optValue
         then ("{" ++ omitzero_test.quote ++ "value" ++ omitzero_test.quote
               ++ ":" ++ fst (json.Marshal (opt.v optValue)) ++ "}",
               nil_error)
         else ("{}", nil_error)))
  /\ (forall optValue : opt.T bool,
        String.eqb (fst (omitzero_test.Marshal_ser optValue)) "{}"
        = negb (opt.present optValue))
  /\ (forall (r : rand.Rand) (b : bool),
        omitzero_test.typedTest (V := bool) r = Return b -> b = true).
Proof.
  exact (omitzero_omits_exactly_absent bool _ _ _ (fun x => eq_refl)).
Defined.

(** The scenario of the omitzero test on booleans. *)
Lemma omitzero_examples :
  fst (omitzero_test.Marshal_ser (opt.None (V := bool))) = "{}"
  /\ String.length (fst (omitzero_test.Marshal_ser (opt.Some false))) = 15
  /\ omitzero_test.typedTest (V := bool) [1%Z; 1%Z] = Return true
  /\ omitzero_test.typedTest (V := bool) [0%Z] = Return true.
Proof.
  repeat split.
Qed.

(** X19: after an [UnmarshalJSON] without error, the input alone decides
    presence: the receiver is absent when the input was [null] and present
    otherwise, whatever it held before. *)
Theorem UnmarshalJSON_presence_from_input :
  forall (V : Type) (codec_V : json.Codec V) (t t' : opt.T V) (data : string),
    opt.UnmarshalJSON t data = (t', nil_error) ->
    opt.IsPresent t' = negb (String.eqb data "null").
Proof.
  intros V codec_V t t' data. unfold opt.UnmarshalJSON.
  destruct (String.eqb data "null").
  - intros [= <-]. reflexivity.
  - destruct (json.Unmarshal data (opt.v t)) as [x [|msg]]; simpl.
    + intros [= <-]. reflexivity.
    + discriminate.
Qed.

Lemma UnmarshalJSON_presence_from_input_witness :
  opt.IsPresent (opt.Some false) = negb (String.eqb "false" "null").
Proof.
  exact (UnmarshalJSON_presence_from_input bool _ opt.None (opt.Some false)
           "false" eq_refl).
Defined.

(* ================================================================== *)
(** * The model of the int codec on the values of [int]                *)
(* ================================================================== *)

Lemma trim_left_no_space (s : string) :
  json.no_space s = true -> json.trim_left s = s.
Proof.
  destruct s as [| a s']; simpl; [reflexivity |].
  intros E. apply andb_true_iff in E. destruct E as [Ea _].
  apply negb_true_iff in Ea. rewrite Ea. reflexivity.
Qed.

Lemma trim_right_no_space (s : string) :
  json.no_space s = true -> json.trim_right s = s.
Proof.
  induction s as [| a s' IH]; simpl; [reflexivity |].
  intros E. apply andb_true_iff in E. destruct E as [Ea Es].
  apply negb_true_iff in Ea. rewrite (IH Es), Ea.
  destruct s'; reflexivity.
Qed.

Lemma trim_no_space (s : string) :
  json.no_space s = true -> json.trim s = s.
Proof.
  intros E. unfold json.trim. rewrite (trim_left_no_space s E).
  apply trim_right_no_space. exact E.
Qed.

Lemma string_of_uint_no_space (d : Decimal.uint) :
  json.no_space (NilEmpty.string_of_uint d) = true.
Proof.
  induction d; simpl; try rewrite IHd; reflexivity.
Qed.

Lemma string_of_int_no_space (d : Decimal.int) :
  json.no_space (NilZero.string_of_int d) = true.
Proof.
  destruct d as [u | u]; simpl; unfold NilZero.string_of_uint;
    destruct u; try reflexivity; simpl; rewrite string_of_uint_no_space;
    reflexivity.
Qed.

(** On the values of Go's [int], the decoder of the model reads back what
    its encoder writes, whatever the variable held. *)
Lemma int_codec_round_trip (n cur : Z) :
  (json.int_min <= n <= json.int_max)%Z ->
  json.Unmarshal (fst (json.Marshal n)) cur = (n, nil_error).
Proof.
  intros Hr. simpl. unfold json.Unmarshal_int, json.Marshal_int. simpl fst.
  assert (json.wrap_int n = n) as Hw.
  { unfold json.wrap_int, json.int_min, json.int_max in *.
    rewrite Z.mod_small by lia. lia. }
  rewrite Hw.
  set (d := Z.to_int n).
  assert (NilZero.int_of_string (NilZero.string_of_int d) = Some d) as Hi.
  { apply NilZero.isi; unfold d; destruct n; simpl; try discriminate;
      intros [= E]; exact (Unsigned.to_uint_nonnil _ E). }
  assert (Decimal.norm d = d) as Hn.
  { pose proof (DecimalZ.to_of d) as E. unfold d in E at 1.
    rewrite DecimalZ.of_to in E. symmetry. exact E. }
  rewrite (trim_no_space _ (string_of_int_no_space d)).
  destruct (String.eqb_spec (NilZero.string_of_int d) "null") as [E | _].
  { rewrite E in Hi. discriminate Hi. }
  unfold json.integer_literal. rewrite Hi, Hn, String.eqb_refl, orb_true_r.
  unfold d. rewrite DecimalZ.of_to.
  destruct Hr as [Hlo Hhi].
  apply Z.leb_le in Hlo. apply Z.leb_le in Hhi. rewrite Hlo, Hhi. reflexivity.
Qed.
